(** * Automatic Folders: a shallow embedding of [src/main.ts]

    The plugin files date-named notes of a journal folder under
    [base/year/month].  Its decision logic lives in four methods of
    [AutomaticFoldersPlugin]: [ensureFolderExists],
    [ensureCurrentFolderExists], [organizeExistingFiles] and
    [handleOldDailyFile].  They are embedded here as computations over
    the vault of the host, in a small monad that threads the vault,
    records every call made to the host and every console line, and
    propagates rejected promises.  The life cycle around them ([onload],
    its [create] callback, [loadSettings] and [saveSettings]) follows the
    scenarios.

    The host (the vault API) and the date library (moment) are not part
    of the repository: the methods are stated over the two interfaces
    [DateLibrary] and [Host], which are instantiated further down with a
    three-token date library and a flat vault, on which the statements
    are exercised. *)

From Stdlib Require Import String Ascii List Bool Arith Lia.
Import ListNotations.
Local Open Scope string_scope.

(** ** Data model *)

(** [interface AutomaticFoldersSettings] (main.ts, lines 4-12). *)
Record AutomaticFoldersSettings := {
  baseJournalFolder : string;
  createYearFolders : bool;
  createMonthFolders : bool;
  dailyNoteFormat : string;
  monthlyFolderFormat : string;
  yearlyFolderFormat : string
}.

(** [DEFAULT_SETTINGS] (main.ts, lines 14-22). *)
Definition DEFAULT_SETTINGS : AutomaticFoldersSettings := {|
  baseJournalFolder := "1 - journal";
  createYearFolders := true;
  createMonthFolders := true;
  dailyNoteFormat := "YYYY-MM-DD";
  monthlyFolderFormat := "MM-YYYY";
  yearlyFolderFormat := "YYYY"
|}.

(** A file handle of the host.  The plugin reads two of its fields. *)
Record TFile := { path : string; name : string }.

(** What [getAbstractFileByPath] and [children] hand out: a file handle
    or a folder handle ([instanceof TFile] / [instanceof TFolder]).  A
    folder handle is its path; its [children] are read from the vault. *)
Inductive TAbstractFile :=
| AFile (f : TFile)
| AFolder (folderPath : string).

(** What a run leaves behind, in order: the calls made to the host, with
    their outcome, and the console lines. *)
Inductive Event :=
| EExists (p : string) (answer : bool)
| ECreateFolder (p : string) (ok : bool)
| ERename (from to : string) (ok : bool)
| EConsoleLog (msg : string)
| EConsoleError (msg : string) (detail : option string).

(** How an awaited computation ends: with a value, or with a rejected
    promise that carries the host's error. *)
Inductive Completion (A : Type) :=
| Return (a : A)
| Throw (e : string).
Arguments Return {A} a.
Arguments Throw {A} e.

Definition isRename (e : Event) : bool :=
  match e with ERename _ _ _ => true | _ => false end.


Definition isCreateFolder (e : Event) : bool :=
  match e with ECreateFolder _ _ => true | _ => false end.

(** The calls of a trace that change the vault. *)
Definition isMutation (e : Event) : bool := isRename e || isCreateFolder e.

(** Any call to the host at all. *)
Definition isHostCall (e : Event) : bool :=
  match e with
  | EExists _ _ | ECreateFolder _ _ | ERename _ _ _ => true
  | _ => false
  end.

(** ** Strings *)

(** The double quote of the console messages. *)
Definition dq : string := String (ascii_of_nat 34) EmptyString.

Definition isDot (c : ascii) : bool := Ascii.eqb c ".".
Definition isSlash (c : ascii) : bool := Ascii.eqb c "/".

Definition notDot (c : ascii) : bool := negb (isDot c).

(** The class [[^/.]]. *)
Definition extensionChar (c : ascii) : bool := negb (isSlash c || isDot c).

Fixpoint allChars (p : ascii -> bool) (s : string) : bool :=
  match s with
  | EmptyString => true
  | String c r => p c && allChars p r
  end.

(** [s] as a whole matches [\.[^/.]+$] anchored at its first character:
    a dot, then one or more characters, none a slash or a dot, up to the
    end of the string. *)
Definition matchesExtension (s : string) : bool :=
  match s with
  | String c (String c1 r1 as r) =>
      isDot c && allChars extensionChar r
  | _ => false
  end.

(** [name.replace(/\.[^/.]+$/, "")] (main.ts, line 86).  The regular
    expression has no [g] flag: the leftmost start position at which it
    matches is replaced, and the match runs to the end of the string, so
    the result is what stands before that position. *)
Fixpoint stripExtension (s : string) : string :=
  if matchesExtension s then EmptyString
  else match s with
       | EmptyString => EmptyString
       | String c r => String c (stripExtension r)
       end.

(** [s.startsWith(p)]. *)
Definition startsWith (s p : string) : bool := String.prefix p s.

(** ** The monad of the plugin's methods *)

(** The date library: a valid date, strict parsing
    ([moment(s, fmt, true)], [None] when [isValid()] is false) and
    [format]. *)
Class DateLibrary := {
  Moment : Type;
  momentStrict : string -> string -> option Moment;
  format : Moment -> string -> string
}.

(** The host: the vault and the five operations the plugin calls.
    [createFolder] and [rename] are promises that may be rejected, with
    the host's error; [children] reads the [children] array of a folder
    handle. *)
Class Host := {
  Vault : Type;
  adapterExists : Vault -> string -> bool;
  createFolder : Vault -> string -> Vault + string;
  getAbstractFileByPath : Vault -> string -> option TAbstractFile;
  children : Vault -> string -> list TAbstractFile;
  rename : Vault -> TFile -> string -> Vault + string
}.

Section Plugin.

Context {DL : DateLibrary} {VH : Host}.

Definition Async (A : Type) : Type :=
  Vault -> Completion A * Vault * list Event.

Definition ret {A} (a : A) : Async A := fun v => (Return a, v, []).

Definition bind {A B} (m : Async A) (k : A -> Async B) : Async B :=
  fun v =>
    match m v with
    | (Return a, v1, t1) =>
        match k a v1 with (c, v2, t2) => (c, v2, (t1 ++ t2)%list) end
    | (Throw e, v1, t1) => (Throw e, v1, t1)
    end.

(** [try { body } catch (error) { handler(error) }]. *)
Definition tryCatch {A} (body : Async A) (handler : string -> Async A)
  : Async A :=
  fun v =>
    match body v with
    | (Return a, v1, t1) => (Return a, v1, t1)
    | (Throw e, v1, t1) =>
        match handler e v1 with (c, v2, t2) => (c, v2, (t1 ++ t2)%list) end
    end.

Definition emit (e : Event) : Async unit := fun v => (Return tt, v, [e]).

Definition consoleLog (msg : string) : Async unit := emit (EConsoleLog msg).
Definition consoleError (msg : string) (detail : option string)
  : Async unit := emit (EConsoleError msg detail).

Definition vaultAdapterExists (p : string) : Async bool :=
  fun v => let b := adapterExists v p in (Return b, v, [EExists p b]).

Definition vaultCreateFolder (p : string) : Async unit :=
  fun v =>
    match createFolder v p with
    | inl v' => (Return tt, v', [ECreateFolder p true])
    | inr e => (Throw e, v, [ECreateFolder p false])
    end.

Definition vaultRename (file : TFile) (newPath : string) : Async unit :=
  fun v =>
    match rename v file newPath with
    | inl v' => (Return tt, v', [ERename (path file) newPath true])
    | inr e => (Throw e, v, [ERename (path file) newPath false])
    end.

Definition readVault : Async Vault := fun v => (Return v, v, []).

Notation "x <- m ;; k" := (bind m (fun x => k))
  (at level 61, m at next level, right associativity).
Notation "m ;; k" := (bind m (fun _ => k))
  (at level 61, right associativity).

(** ** The methods *)

(** [ensureFolderExists] (main.ts, lines 60-65). *)
Definition ensureFolderExists (folderPath : string) : Async unit :=
  present <- vaultAdapterExists folderPath ;;
  if negb present then vaultCreateFolder folderPath else ret tt.

(** [ensureCurrentFolderExists] (main.ts, lines 46-58); [now] is what
    [moment()] answers. *)
Definition ensureCurrentFolderExists
  (settings : AutomaticFoldersSettings) (now : Moment) : Async unit :=
  let yearString := format now (yearlyFolderFormat settings) in
  let monthString := format now (monthlyFolderFormat settings) in
  let yearlyFolderPath := baseJournalFolder settings ++ "/" ++ yearString in
  let monthlyFolderPath :=
    baseJournalFolder settings ++ "/" ++ yearString ++ "/" ++ monthString in
  ensureFolderExists yearlyFolderPath ;;
  ensureFolderExists monthlyFolderPath.

(** The template of main.ts, line 116, on the two strings of lines
    108-113. *)
Definition targetFolderPath
  (settings : AutomaticFoldersSettings) (getFilesDate : Moment) : string :=
  let baseFolder := baseJournalFolder settings in
  let fileYearString := format getFilesDate (yearlyFolderFormat settings) in
  let fileMonthString := format getFilesDate (monthlyFolderFormat settings) in
  baseFolder ++ "/" ++ fileYearString ++ "/" ++ fileMonthString.

(** [handleOldDailyFile] (main.ts, lines 83-138).  [None] is [null]. *)
Definition handleOldDailyFile
  (settings : AutomaticFoldersSettings) (now : Moment) (file : TFile)
  : Async (option string) :=
  let fileBaseName := stripExtension (name file) in
  match momentStrict fileBaseName (dailyNoteFormat settings) with
  | None =>
      consoleLog ("Could not parse a valid date from file name: "
                  ++ name file) ;;
      ret None
  | Some getFilesDate =>
      let todayString := format now (dailyNoteFormat settings) in
      if String.eqb fileBaseName todayString then
        consoleLog ("Skipping today's file: " ++ name file) ;;
        ret None
      else
        let target := targetFolderPath settings getFilesDate in
        ensureFolderExists target ;;
        if startsWith (path file) target then
          consoleLog ("Skipping " ++ dq ++ name file ++ dq
                      ++ " (already in correct folder)") ;;
          ret None
        else
          ensureFolderExists target ;;
          let newPath := target ++ "/" ++ name file in
          tryCatch
            (vaultRename file newPath ;;
             consoleLog ("Moved " ++ dq ++ name file ++ dq
                         ++ " to folder: " ++ target) ;;
             ret (Some (name file)))
            (fun error =>
               consoleError ("Error moving file " ++ dq ++ name file
                             ++ dq ++ ":") (Some error) ;;
               ret None)
  end.

(** The body of the [for ... of] loop of main.ts, lines 76-80, over the
    children read when the loop starts. *)
Fixpoint forEachChild
  (settings : AutomaticFoldersSettings) (now : Moment)
  (cs : list TAbstractFile) : Async unit :=
  match cs with
  | [] => ret tt
  | AFile file :: rest =>
      handleOldDailyFile settings now file ;;
      forEachChild settings now rest
  | AFolder _ :: rest => forEachChild settings now rest
  end.

(** [organizeExistingFiles] (main.ts, lines 67-81). *)
Definition organizeExistingFiles
  (settings : AutomaticFoldersSettings) (now : Moment) : Async unit :=
  let baseFolder := baseJournalFolder settings in
  v <- readVault ;;
  match getAbstractFileByPath v baseFolder with
  | Some (AFolder journalFolder) =>
      forEachChild settings now (children v journalFolder)
  | _ =>
      consoleError ("Folder " ++ dq ++ baseFolder ++ dq ++ " not found.")
                   None
  end.

End Plugin.

(** ** A date library for formats made of YYYY, MM and DD

    An instance of [DateLibrary] that knows the three tokens of the
    default settings; any other character of a format stands for
    itself. *)
Module MiniMoment.

Record Date := { year : nat; month : nat; day : nat }.

Inductive Token := TYear | TMonth | TDay | TLit (c : ascii).

(** The tokens of a format; [skip] characters belong to the token
    that was just read. *)
Fixpoint tokensFrom (skip : nat) (fmt : string) : list Token :=
  match fmt with
  | EmptyString => []
  | String c r =>
      match skip with
      | S k => tokensFrom k r
      | O =>
          if String.prefix "YYYY" fmt then TYear :: tokensFrom 3 r
          else if String.prefix "MM" fmt then TMonth :: tokensFrom 1 r
          else if String.prefix "DD" fmt then TDay :: tokensFrom 1 r
          else TLit c :: tokensFrom 0 r
      end
  end.

Definition tokens (fmt : string) : list Token := tokensFrom 0 fmt.

Definition digit (n : nat) : ascii := ascii_of_nat (48 + n mod 10).

Definition pad2 (n : nat) : string :=
  String (digit (n / 10)) (String (digit n) EmptyString).

Definition pad4 (n : nat) : string :=
  String (digit (n / 1000)) (String (digit (n / 100)) (pad2 n)).

Definition render (d : Date) (t : Token) : string :=
  match t with
  | TYear => pad4 (year d)
  | TMonth => pad2 (month d)
  | TDay => pad2 (day d)
  | TLit c => String c EmptyString
  end.

Definition formatDate (d : Date) (fmt : string) : string :=
  fold_right (fun t acc => render d t ++ acc) EmptyString (tokens fmt).

Definition digitValue (c : ascii) : option nat :=
  let n := nat_of_ascii c in
  if ((48 <=? n) && (n <=? 57))%nat then Some (n - 48) else None.

(** Exactly [k] decimal digits at the head of [s]: their value, on top
    of [acc], and what follows them. *)
Fixpoint takeDigits (k : nat) (acc : nat) (s : string)
  : option (nat * string) :=
  match k with
  | O => Some (acc, s)
  | S k' =>
      match s with
      | EmptyString => None
      | String c r =>
          match digitValue c with
          | Some n => takeDigits k' (10 * acc + n) r
          | None => None
          end
      end
  end.

(** The string against the tokens, each token consuming exactly its
    width, the whole string consumed. *)
Fixpoint parseTokens (ts : list Token) (s : string) (d : Date)
  : option Date :=
  match ts with
  | [] => match s with EmptyString => Some d | _ => None end
  | TYear :: ts' =>
      match takeDigits 4 0 s with
      | Some (n, r) =>
          parseTokens ts' r {| year := n; month := month d; day := day d |}
      | None => None
      end
  | TMonth :: ts' =>
      match takeDigits 2 0 s with
      | Some (n, r) =>
          parseTokens ts' r {| year := year d; month := n; day := day d |}
      | None => None
      end
  | TDay :: ts' =>
      match takeDigits 2 0 s with
      | Some (n, r) =>
          parseTokens ts' r {| year := year d; month := month d; day := n |}
      | None => None
      end
  | TLit c :: ts' =>
      match s with
      | String c' r => if Ascii.eqb c c' then parseTokens ts' r d else None
      | EmptyString => None
      end
  end.

Definition isLeap (y : nat) : bool :=
  (((y mod 4 =? 0) && negb (y mod 100 =? 0)) || (y mod 400 =? 0))%nat.

Definition daysInMonth (y m : nat) : nat :=
  match m with
  | 2 => if isLeap y then 29 else 28
  | 4 | 6 | 9 | 11 => 30
  | _ => 31
  end.

Definition validDate (d : Date) : bool :=
  ((1 <=? month d) && (month d <=? 12)
   && (1 <=? day d) && (day d <=? daysInMonth (year d) (month d)))%nat.

Definition parseStrict (s fmt : string) : option Date :=
  match parseTokens (tokens fmt) s {| year := 2000; month := 1; day := 1 |}
  with
  | Some d => if validDate d then Some d else None
  | None => None
  end.

#[global] Instance dateLibrary : DateLibrary := {|
  Moment := Date;
  momentStrict := parseStrict;
  format := formatDate
|}.

End MiniMoment.

(** ** A flat vault

    An instance of [Host]: the vault is the list of its entries, each
    with its full path, in the order the host lists them.  The children
    of a folder are the entries whose path has the folder's path before
    its last slash.  [createFolder] is rejected when the path exists;
    [rename] is rejected when the destination exists, when the file is
    not in the vault, or when the destination's folder is not there. *)
Module FlatVault.

Definition entryPath (e : TAbstractFile) : string :=
  match e with AFile f => path f | AFolder p => p end.

Fixpoint hasSlash (s : string) : bool :=
  match s with
  | EmptyString => false
  | String c r => isSlash c || hasSlash r
  end.

(** What stands before the last slash; nothing when there is none. *)
Fixpoint dirname (s : string) : string :=
  match s with
  | EmptyString => EmptyString
  | String c r => if hasSlash r then String c (dirname r) else EmptyString
  end.

(** What stands after the last slash. *)
Fixpoint basename (s : string) : string :=
  match s with
  | EmptyString => EmptyString
  | String c r => if hasSlash s then basename r else s
  end.

Definition exists_ (v : list TAbstractFile) (p : string) : bool :=
  existsb (fun e => String.eqb (entryPath e) p) v.

Definition isFolderAt (p : string) (e : TAbstractFile) : bool :=
  match e with AFolder q => String.eqb q p | AFile _ => false end.

Definition isFileAt (p : string) (e : TAbstractFile) : bool :=
  match e with AFile f => String.eqb (path f) p | AFolder _ => false end.

Definition createFolder_ (v : list TAbstractFile) (p : string)
  : list TAbstractFile + string :=
  if exists_ v p then inr "Folder already exists."
  else inl (v ++ [AFolder p])%list.

Definition lookup (v : list TAbstractFile) (p : string)
  : option TAbstractFile :=
  find (fun e => String.eqb (entryPath e) p) v.

Definition children_ (v : list TAbstractFile) (p : string)
  : list TAbstractFile :=
  filter (fun e => String.eqb (dirname (entryPath e)) p) v.

Definition moveEntry (from to : string) (e : TAbstractFile)
  : TAbstractFile :=
  if isFileAt from e then AFile {| path := to; name := basename to |}
  else e.

Definition rename_ (v : list TAbstractFile) (file : TFile) (newPath : string)
  : list TAbstractFile + string :=
  if exists_ v newPath then inr "Destination file already exists!"
  else if negb (existsb (isFileAt (path file)) v) then inr "File not found."
  else if negb (existsb (isFolderAt (dirname newPath)) v)
       then inr "Destination folder not found."
  else inl (map (moveEntry (path file) newPath) v).

#[global] Instance host : Host := {|
  Vault := list TAbstractFile;
  adapterExists := exists_;
  createFolder := createFolder_;
  getAbstractFileByPath := lookup;
  children := children_;
  rename := rename_
|}.

End FlatVault.

(** ** Reading a run *)

Section Runs.

Context {VH : Host}.

Definition completionOf {A} (r : Completion A * Vault * list Event)
  : Completion A := fst (fst r).
Definition vaultOf {A} (r : Completion A * Vault * list Event)
  : Vault := snd (fst r).
Definition traceOf {A} (r : Completion A * Vault * list Event)
  : list Event := snd r.

End Runs.

(** The number of [rename] calls in a trace. *)
Definition renameCalls (t : list Event) : nat := length (filter isRename t).

(** The target folder as section 4.2 of the specification words it. *)
Definition targetFolder_spec {DL : DateLibrary}
  (base : string) (date : Moment) (yearFmt monthFmt : string) : string :=
  base ++ "/" ++ format date yearFmt ++ "/" ++ base ++ "/"
  ++ format date yearFmt ++ "/" ++ format date monthFmt.

(** The three guards of [handleOldDailyFile] that end in [return null]
    before the move: the name is not a date, it is today's name, the path
    starts with the target. *)
Definition skippedByGuards {DL : DateLibrary}
  (settings : AutomaticFoldersSettings) (now : Moment) (file : TFile) : bool :=
  match momentStrict (stripExtension (name file)) (dailyNoteFormat settings)
  with
  | None => true
  | Some d =>
      String.eqb (stripExtension (name file))
                 (format now (dailyNoteFormat settings))
      || startsWith (path file) (targetFolderPath settings d)
  end.

(** ** Scenarios *)
Module Scenario.

Definition settings : AutomaticFoldersSettings := {|
  baseJournalFolder := "journal";
  createYearFolders := true;
  createMonthFolders := true;
  dailyNoteFormat := "YYYY-MM-DD";
  monthlyFolderFormat := "MM";
  yearlyFolderFormat := "YYYY"
|}.

Definition flagsOff : AutomaticFoldersSettings := {|
  baseJournalFolder := "journal";
  createYearFolders := false;
  createMonthFolders := false;
  dailyNoteFormat := "YYYY-MM-DD";
  monthlyFolderFormat := "MM";
  yearlyFolderFormat := "YYYY"
|}.

Definition june1 : @Moment MiniMoment.dateLibrary :=
  {| MiniMoment.year := 2025; MiniMoment.month := 6; MiniMoment.day := 1 |}.
Definition jan15 : @Moment MiniMoment.dateLibrary :=
  {| MiniMoment.year := 2025; MiniMoment.month := 1; MiniMoment.day := 15 |}.
Definition mar5 : @Moment MiniMoment.dateLibrary :=
  {| MiniMoment.year := 2025; MiniMoment.month := 3; MiniMoment.day := 5 |}.

Definition oldNote : TFile :=
  {| path := "journal/2025-01-15.md"; name := "2025-01-15.md" |}.
Definition febNote : TFile :=
  {| path := "journal/2025-02-03.md"; name := "2025-02-03.md" |}.
Definition plainNote : TFile :=
  {| path := "journal/notes.md"; name := "notes.md" |}.
Definition todayNote : TFile :=
  {| path := "journal/2025-06-01.md"; name := "2025-06-01.md" |}.
Definition bareNote : TFile :=
  {| path := "journal/2025-01-15"; name := "2025-01-15" |}.
Definition filedNote : TFile :=
  {| path := "journal/2025/01/2025-01-15.md"; name := "2025-01-15.md" |}.

(** The journal of scenarios A, B and C of the specification. *)
Definition journal : @Vault FlatVault.host :=
  [AFolder "journal"; AFile oldNote; AFile plainNote; AFile todayNote].

(** A journal in which the destination of [oldNote] is taken. *)
Definition collision : @Vault FlatVault.host :=
  [AFolder "journal"; AFolder "journal/2025"; AFolder "journal/2025/01";
   AFile oldNote; AFile febNote; AFile filedNote].

(** A vault without the journal folder. *)
Definition noJournal : @Vault FlatVault.host :=
  [AFile {| path := "readme.md"; name := "readme.md" |}].

Definition bareJournal : @Vault FlatVault.host :=
  [AFolder "journal"; AFile bareNote].

(** The loose prefix: target [j/2025/03], file under [j/2025/030-extra]. *)
Definition settingsJ : AutomaticFoldersSettings := {|
  baseJournalFolder := "j";
  createYearFolders := true;
  createMonthFolders := true;
  dailyNoteFormat := "YYYY-MM-DD";
  monthlyFolderFormat := "MM";
  yearlyFolderFormat := "YYYY"
|}.

Definition strayNote : TFile :=
  {| path := "j/2025/030-extra/2025-03-05.md"; name := "2025-03-05.md" |}.

Definition looseVault : @Vault FlatVault.host :=
  [AFolder "j"; AFolder "j/2025"; AFolder "j/2025/030-extra";
   AFile strayNote].

End Scenario.

(** ** The life cycle of the plugin *)

(** What [loadData] resolves to once parsed: an object that holds some of
    the fields of the settings. *)
Record SavedData := {
  savedBaseJournalFolder : option string;
  savedCreateYearFolders : option bool;
  savedCreateMonthFolders : option bool;
  savedDailyNoteFormat : option string;
  savedMonthlyFolderFormat : option string;
  savedYearlyFolderFormat : option string
}.

Definition assignField {A} (default : A) (saved : option A) : A :=
  match saved with Some x => x | None => default end.

(** [loadSettings] (main.ts, lines 140-146):
    [Object.assign({}, DEFAULT_SETTINGS, data)]; [None] is the [null] of a
    plugin that never saved. *)
Definition loadSettings (data : option SavedData) : AutomaticFoldersSettings :=
  match data with
  | None => DEFAULT_SETTINGS
  | Some d => {|
      baseJournalFolder :=
        assignField (baseJournalFolder DEFAULT_SETTINGS)
                    (savedBaseJournalFolder d);
      createYearFolders :=
        assignField (createYearFolders DEFAULT_SETTINGS)
                    (savedCreateYearFolders d);
      createMonthFolders :=
        assignField (createMonthFolders DEFAULT_SETTINGS)
                    (savedCreateMonthFolders d);
      dailyNoteFormat :=
        assignField (dailyNoteFormat DEFAULT_SETTINGS)
                    (savedDailyNoteFormat d);
      monthlyFolderFormat :=
        assignField (monthlyFolderFormat DEFAULT_SETTINGS)
                    (savedMonthlyFolderFormat d);
      yearlyFolderFormat :=
        assignField (yearlyFolderFormat DEFAULT_SETTINGS)
                    (savedYearlyFolderFormat d)
    |}
  end.

(** [saveSettings] (main.ts, lines 148-150): what [saveData] is handed,
    the settings object with all its fields. *)
Definition saveSettings (settings : AutomaticFoldersSettings) : SavedData := {|
  savedBaseJournalFolder := Some (baseJournalFolder settings);
  savedCreateYearFolders := Some (createYearFolders settings);
  savedCreateMonthFolders := Some (createMonthFolders settings);
  savedDailyNoteFormat := Some (dailyNoteFormat settings);
  savedMonthlyFolderFormat := Some (monthlyFolderFormat settings);
  savedYearlyFolderFormat := Some (yearlyFolderFormat settings)
|}.

Section Lifecycle.

Context {DL : DateLibrary} {VH : Host}.

(** The callback [onload] registers for the [create] event of the vault
    (main.ts, lines 38-42).  It reads the settings of the moment the
    event comes in. *)
Definition onCreate
  (settings : AutomaticFoldersSettings) (now : Moment) (file : TFile)
  : Async unit :=
  if startsWith (path file) (baseJournalFolder settings ++ "/") then
    bind (handleOldDailyFile settings now file) (fun _ => ret tt)
  else ret tt.

(** [onload] (main.ts, lines 27-44), on what [loadData] resolved to.  The
    value is [this.settings]; the registration of [onCreate] is the last
    statement, so it is reached exactly when [onload] returns.  The
    settings tab leaves the vault alone and is left out. *)
Definition onload (data : option SavedData) (now : Moment)
  : Async AutomaticFoldersSettings :=
  let settings := loadSettings data in
  bind (consoleLog "Auto File Organizer loaded") (fun _ =>
  bind (ensureCurrentFolderExists settings now) (fun _ =>
  bind (organizeExistingFiles settings now) (fun _ =>
  ret settings))).

(** A folder the host accepted to create is there afterwards. *)
Definition createdFoldersExist : Prop :=
  forall (v v' : Vault) (p : string),
    createFolder v p = inl v' -> adapterExists v' p = true.

(** Creating a folder removes no path. *)
Definition foldersPersist : Prop :=
  forall (v v' : Vault) (p q : string),
    createFolder v p = inl v' ->
    adapterExists v q = true -> adapterExists v' q = true.

End Lifecycle.

Definition isAcceptedRename (e : Event) : bool :=
  match e with ERename _ _ true => true | _ => false end.

(** The number of [createFolder] calls in a trace. *)
Definition createFolderCalls (t : list Event) : nat :=
  length (filter isCreateFolder t).

Definition isFolderHandle (e : TAbstractFile) : bool :=
  match e with AFolder _ => true | AFile _ => false end.

(** ** The sweep on the live array

    [journalFolder.children] is an array the host owns.  The
    [for ... of] loop of main.ts, line 76, asks it for its element [i]
    when step [i] starts, and [handleOldDailyFile] is awaited in between:
    on a host that takes a renamed file out of the array, the children
    behind it move one place down and the loop passes over the next one.
    [forEachChild] is the loop on a listing that stays as it was when the
    loop started; [forOfChildren] reads the listing from the vault at
    every step. *)
Section LiveSweep.

Context {DL : DateLibrary} {VH : Host}.







End LiveSweep.

(** ** A vault that accepts no new folder

    The flat vault, with a [createFolder] that is always rejected. *)
Module LockedVault.

Definition createFolder_ (v : list TAbstractFile) (p : string)
  : list TAbstractFile + string :=
  inr "EACCES: permission denied".

Definition host : Host := {|
  Vault := list TAbstractFile;
  adapterExists := FlatVault.exists_;
  createFolder := createFolder_;
  getAbstractFileByPath := FlatVault.lookup;
  children := FlatVault.children_;
  rename := FlatVault.rename_
|}.

End LockedVault.

Module Startup.

(** Data saved by a version that knew the base folder only. *)
Definition partialData : SavedData := {|
  savedBaseJournalFolder := Some "journal";
  savedCreateYearFolders := None;
  savedCreateMonthFolders := None;
  savedDailyNoteFormat := None;
  savedMonthlyFolderFormat := None;
  savedYearlyFolderFormat := None
|}.

Definition nestedNote : TFile :=
  {| path := "journal/inbox/2025-01-15.md"; name := "2025-01-15.md" |}.

Definition outsideNote : TFile :=
  {| path := "journal2/2025-01-15.md"; name := "2025-01-15.md" |}.

Definition nested : @Vault FlatVault.host :=
  [AFolder "journal"; AFolder "journal/inbox"; AFolder "journal2";
   AFile nestedNote; AFile outsideNote].

(** A journal that holds folders only. *)
Definition foldersOnly : @Vault FlatVault.host :=
  [AFolder "journal"; AFolder "journal/2024"; AFolder "journal/2025"].

Definition locked : @Vault LockedVault.host := Scenario.journal.

Definition lockedLoose : @Vault LockedVault.host := Scenario.looseVault.



End Startup.

(** * Facts *)

(** ** Strings *)

Lemma append_assoc (a b c : string) : (a ++ b) ++ c = a ++ (b ++ c).
Proof.
  induction a as [|x a IH]; simpl; [reflexivity | now rewrite IH].
Qed.

Lemma append_length (a b : string) :
  String.length (a ++ b) = String.length a + String.length b.
Proof.
  induction a as [|x a IH]; simpl; [reflexivity | now rewrite IH].
Qed.

Lemma prefix_append (a b : string) : String.prefix a (a ++ b) = true.
Proof.
  induction a as [|x a IH]; simpl.
  - now destruct b.
  - destruct (ascii_dec x x) as [_|N]; [exact IH | now elim N].
Qed.

Lemma startsWith_append (a b : string) : startsWith (a ++ b) a = true.
Proof. apply prefix_append. Qed.

Lemma matchesExtension_cons (c : ascii) (r : string) :
  matchesExtension (String c r)
  = match r with
    | EmptyString => false
    | _ => isDot c && allChars extensionChar r
    end.
Proof. destruct r; reflexivity. Qed.

Lemma allChars_through_dot (b e : string) :
  allChars extensionChar (b ++ String "." e) = false.
Proof.
  induction b as [|x b IH]; simpl.
  - reflexivity.
  - rewrite IH. apply andb_false_r.
Qed.

Lemma stripExtension_without_dot (s : string) :
  allChars notDot s = true -> stripExtension s = s.
Proof.
  induction s as [|c r IH]; [reflexivity|].
  simpl allChars. intros Hall. apply andb_prop in Hall as [Hc Hr].
  unfold notDot in Hc. apply negb_true_iff in Hc.
  change (stripExtension (String c r))
    with (if matchesExtension (String c r) then EmptyString
          else String c (stripExtension r)).
  rewrite matchesExtension_cons, Hc.
  rewrite (IH Hr). now destruct r.
Qed.

Lemma stripExtension_last_suffix (b e : string) :
  e <> EmptyString ->
  allChars extensionChar e = true ->
  stripExtension (b ++ String "." e) = b.
Proof.
  intros Hne Hall. induction b as [|x b IH].
  - destruct e as [|c e]; [now elim Hne|].
    cbn [append]. unfold stripExtension.
    rewrite matchesExtension_cons.
    now rewrite Hall.
  - cbn [append].
    change (stripExtension (String x (b ++ String "." e)))
      with (if matchesExtension (String x (b ++ String "." e))
            then EmptyString
            else String x (stripExtension (b ++ String "." e))).
    rewrite matchesExtension_cons, allChars_through_dot, andb_false_r, IH.
    now destruct (b ++ String "." e).
Qed.

(** ** The runs of the methods, in terms of the host *)

Section Facts.

Context {DL : DateLibrary} {VH : Host}.

Lemma ensureFolderExists_run (p : string) (v : Vault) :
  ensureFolderExists p v =
  if adapterExists v p then (Return tt, v, [EExists p true])
  else match createFolder v p with
       | inl v' => (Return tt, v', [EExists p false; ECreateFolder p true])
       | inr e => (Throw e, v, [EExists p false; ECreateFolder p false])
       end.
Proof.
  unfold ensureFolderExists, bind, vaultAdapterExists, vaultCreateFolder, ret.
  destruct (adapterExists v p); simpl; [reflexivity|].
  now destruct (createFolder v p).
Qed.

Lemma ensureFolderExists_no_rename (p : string) (v : Vault) :
  existsb isRename (traceOf (ensureFolderExists p v)) = false.
Proof.
  rewrite ensureFolderExists_run.
  destruct (adapterExists v p); [reflexivity|].
  now destruct (createFolder v p).
Qed.

(** The path line 129 of main.ts builds, written out. *)
Lemma newPath_flat
  (settings : AutomaticFoldersSettings) (d : Moment) (n : string) :
  targetFolderPath settings d ++ "/" ++ n
  = baseJournalFolder settings ++ "/"
    ++ format d (yearlyFolderFormat settings) ++ "/"
    ++ format d (monthlyFolderFormat settings) ++ "/" ++ n.
Proof.
  unfold targetFolderPath. now rewrite !append_assoc.
Qed.

(** Past the three guards and the two folder checks, the method is its
    [try] block: one call of [rename], and what follows from its
    outcome. *)
Lemma handleOldDailyFile_move
  (settings : AutomaticFoldersSettings) (now : Moment) (file : TFile)
  (d : Moment) (v v1 v2 : Vault) (t1 t2 : list Event) :
  momentStrict (stripExtension (name file)) (dailyNoteFormat settings)
    = Some d ->
  stripExtension (name file) <> format now (dailyNoteFormat settings) ->
  startsWith (path file) (targetFolderPath settings d) = false ->
  ensureFolderExists (targetFolderPath settings d) v = (Return tt, v1, t1) ->
  ensureFolderExists (targetFolderPath settings d) v1 = (Return tt, v2, t2) ->
  handleOldDailyFile settings now file v =
  let target := targetFolderPath settings d in
  let newPath := target ++ "/" ++ name file in
  match rename v2 file newPath with
  | inl v3 =>
      (Return (Some (name file)), v3,
       (t1 ++ t2 ++
        [ERename (path file) newPath true;
         EConsoleLog ("Moved " ++ dq ++ name file ++ dq
                      ++ " to folder: " ++ target)])%list)
  | inr e =>
      (Return None, v2,
       (t1 ++ t2 ++
        [ERename (path file) newPath false;
         EConsoleError ("Error moving file " ++ dq ++ name file ++ dq
                        ++ ":") (Some e)])%list)
  end.
Proof.
  intros Hparse Htoday Hplaced He1 He2.
  apply String.eqb_neq in Htoday.
  unfold handleOldDailyFile. rewrite Hparse, Htoday.
  unfold bind at 1. rewrite He1, Hplaced.
  unfold bind at 1. rewrite He2.
  unfold tryCatch, bind, vaultRename, consoleLog, consoleError, emit, ret.
  cbv zeta.
  destruct (rename v2 file (targetFolderPath settings d ++ "/" ++ name file));
    reflexivity.
Qed.

(** Whatever the host answers, a dated file that is not today's and not
    placed yet is renamed to one path only. *)
Lemma handleOldDailyFile_renames_to
  (settings : AutomaticFoldersSettings) (now : Moment) (file : TFile)
  (d : Moment) (v : Vault) (e : Event) :
  momentStrict (stripExtension (name file)) (dailyNoteFormat settings)
    = Some d ->
  stripExtension (name file) <> format now (dailyNoteFormat settings) ->
  startsWith (path file) (targetFolderPath settings d) = false ->
  In e (traceOf (handleOldDailyFile settings now file v)) ->
  isRename e = true ->
  exists ok,
    e = ERename (path file)
                (targetFolderPath settings d ++ "/" ++ name file) ok.
Proof.
  intros Hparse Htoday Hplaced Hin Hren.
  destruct (ensureFolderExists (targetFolderPath settings d) v)
    as [[c1 v1] t1] eqn:He1.
  assert (Hn1 : existsb isRename t1 = false).
  { pose proof (ensureFolderExists_no_rename (targetFolderPath settings d) v)
      as Hn. now rewrite He1 in Hn. }
  destruct (ensureFolderExists (targetFolderPath settings d) v1)
    as [[c2 v2] t2] eqn:He2.
  assert (Hn2 : existsb isRename t2 = false).
  { pose proof (ensureFolderExists_no_rename (targetFolderPath settings d) v1)
      as Hn. now rewrite He2 in Hn. }
  assert (Hno : forall t, existsb isRename t = false -> In e t -> False).
  { intros t Ht Hi.
    assert (existsb isRename t = true)
      by (apply existsb_exists; now exists e).
    congruence. }
  destruct c1 as [[]|err1].
  - destruct c2 as [[]|err2].
    + rewrite (handleOldDailyFile_move settings now file d v v1 v2 t1 t2)
        in Hin by assumption.
      cbv zeta in Hin.
      destruct (rename v2 file
                  (targetFolderPath settings d ++ "/" ++ name file));
        unfold traceOf in Hin; simpl in Hin;
        apply in_app_or in Hin; destruct Hin as [Hin|Hin];
        try (now elim (Hno t1)); apply in_app_or in Hin;
        destruct Hin as [Hin|Hin]; try (now elim (Hno t2));
        simpl in Hin; destruct Hin as [<-|[<-|[]]]; try discriminate;
        eexists; reflexivity.
    + apply String.eqb_neq in Htoday.
      unfold handleOldDailyFile in Hin. rewrite Hparse, Htoday in Hin.
      unfold bind at 1 in Hin. rewrite He1, Hplaced in Hin.
      unfold bind at 1 in Hin. rewrite He2 in Hin.
      unfold traceOf in Hin; simpl in Hin.
      apply in_app_or in Hin; destruct Hin as [Hin|Hin];
        [now elim (Hno t1) | now elim (Hno t2)].
  - apply String.eqb_neq in Htoday.
    unfold handleOldDailyFile in Hin. rewrite Hparse, Htoday in Hin.
    unfold bind at 1 in Hin. rewrite He1 in Hin.
    unfold traceOf in Hin; simpl in Hin. now elim (Hno t1).
Qed.

(** A file that one of the three guards stops is not renamed, whatever
    the host answers. *)
Lemma handleOldDailyFile_guarded
  (settings : AutomaticFoldersSettings) (now : Moment) (file : TFile)
  (v : Vault) :
  skippedByGuards settings now file = true ->
  existsb isRename (traceOf (handleOldDailyFile settings now file v))
    = false.
Proof.
  unfold skippedByGuards, handleOldDailyFile.
  destruct (momentStrict (stripExtension (name file))
                         (dailyNoteFormat settings)) as [d|];
    [|reflexivity].
  destruct (String.eqb (stripExtension (name file))
                       (format now (dailyNoteFormat settings)));
    [reflexivity|].
  simpl. intros Hplaced.
  pose proof (ensureFolderExists_no_rename (targetFolderPath settings d) v)
    as Hn.
  unfold bind at 1.
  destruct (ensureFolderExists (targetFolderPath settings d) v)
    as [[[[]|err] v1] t1]; unfold traceOf in *; simpl in *;
    [|exact Hn].
  rewrite Hplaced. unfold bind, consoleLog, emit, ret. simpl.
  rewrite existsb_app, Hn. reflexivity.
Qed.


(** ** The guards of [handleOldDailyFile] *)

(** C3.  A file whose name, without its extension, does not strictly
    parse under [dailyNoteFormat] makes [handleOldDailyFile] return
    [null]; the run writes one console line, calls the host not at all
    (no folder is created, no rename is issued) and leaves the vault as
    it was. *)
Theorem C3_not_dated_is_skipped
  (settings : AutomaticFoldersSettings) (now : Moment) (file : TFile)
  (v : Vault) :
  momentStrict (stripExtension (name file)) (dailyNoteFormat settings)
    = None ->
  handleOldDailyFile settings now file v
    = (Return None, v,
       [EConsoleLog ("Could not parse a valid date from file name: "
                     ++ name file)])
  /\ existsb isHostCall (traceOf (handleOldDailyFile settings now file v))
     = false.
Proof.
  intros Hparse. unfold handleOldDailyFile. rewrite Hparse.
  split; reflexivity.
Qed.

(** C4.  A file whose name parses, and whose base name is the string
    [format(today, dailyNoteFormat)], makes [handleOldDailyFile] return
    [null]; the host is not called (no folder creation, no move) and the
    vault is unchanged. *)
Theorem C4_today_is_skipped
  (settings : AutomaticFoldersSettings) (now : Moment) (file : TFile)
  (d : Moment) (v : Vault) :
  momentStrict (stripExtension (name file)) (dailyNoteFormat settings)
    = Some d ->
  stripExtension (name file) = format now (dailyNoteFormat settings) ->
  handleOldDailyFile settings now file v
    = (Return None, v, [EConsoleLog ("Skipping today's file: " ++ name file)])
  /\ existsb isHostCall (traceOf (handleOldDailyFile settings now file v))
     = false.
Proof.
  intros Hparse Htoday. unfold handleOldDailyFile. rewrite Hparse.
  apply String.eqb_eq in Htoday. rewrite Htoday.
  split; reflexivity.
Qed.

(** C5.  A dated file, not today's, whose path starts with the target
    folder path as a string: no rename is issued, whatever the host
    answers, and once the folder check before the guard has completed
    the method returns [null] with the vault that check left.  The
    guard is [startsWith]: it holds for the target followed by any
    characters, a slash or not. *)
Theorem C5_already_placed_is_skipped
  (settings : AutomaticFoldersSettings) (now : Moment) (file : TFile)
  (d : Moment) (v : Vault) :
  momentStrict (stripExtension (name file)) (dailyNoteFormat settings)
    = Some d ->
  stripExtension (name file) <> format now (dailyNoteFormat settings) ->
  startsWith (path file) (targetFolderPath settings d) = true ->
  existsb isRename (traceOf (handleOldDailyFile settings now file v)) = false
  /\ (forall v1 t1,
        ensureFolderExists (targetFolderPath settings d) v
          = (Return tt, v1, t1) ->
        handleOldDailyFile settings now file v
        = (Return None, v1,
           (t1 ++ [EConsoleLog ("Skipping " ++ dq ++ name file ++ dq
                                ++ " (already in correct folder)")])%list))
  /\ (forall rest : string,
        startsWith (targetFolderPath settings d ++ rest)
                   (targetFolderPath settings d) = true).
Proof.
  intros Hparse Htoday Hplaced. split; [|split].
  - apply handleOldDailyFile_guarded. unfold skippedByGuards.
    rewrite Hparse, Hplaced. apply orb_true_r.
  - intros v1 t1 He1. apply String.eqb_neq in Htoday.
    unfold handleOldDailyFile. rewrite Hparse, Htoday.
    unfold bind at 1. rewrite He1, Hplaced. reflexivity.
  - intros rest. apply startsWith_append.
Qed.

(** ** The move *)

(** C1.  A file whose base name strictly parses to [d], that is not
    today's file and whose path does not start with the target folder
    path: the only rename the method ever asks for is the one of the
    file to [base/format(d, yearly)/format(d, monthly)/name], extension
    included; once the two folder checks have completed that rename is
    asked for, and when the host accepts it the method returns the
    file's name and leaves the vault the host answered. *)
Theorem C1_old_daily_file_is_moved
  (settings : AutomaticFoldersSettings) (now : Moment) (file : TFile)
  (d : Moment) (v v1 v2 : Vault) (t1 t2 : list Event) :
  momentStrict (stripExtension (name file)) (dailyNoteFormat settings)
    = Some d ->
  stripExtension (name file) <> format now (dailyNoteFormat settings) ->
  startsWith (path file) (targetFolderPath settings d) = false ->
  ensureFolderExists (targetFolderPath settings d) v = (Return tt, v1, t1) ->
  ensureFolderExists (targetFolderPath settings d) v1 = (Return tt, v2, t2) ->
  let newPath :=
    baseJournalFolder settings ++ "/"
    ++ format d (yearlyFolderFormat settings) ++ "/"
    ++ format d (monthlyFolderFormat settings) ++ "/" ++ name file in
  let run := handleOldDailyFile settings now file v in
  (exists ok, In (ERename (path file) newPath ok) (traceOf run))
  /\ (forall e, In e (traceOf run) -> isRename e = true ->
                exists ok, e = ERename (path file) newPath ok)
  /\ (forall v3, rename v2 file newPath = inl v3 ->
                 completionOf run = Return (Some (name file))
                 /\ vaultOf run = v3
                 /\ In (ERename (path file) newPath true) (traceOf run)).
Proof.
  intros Hparse Htoday Hplaced He1 He2 newPath run.
  assert (Hpath : targetFolderPath settings d ++ "/" ++ name file = newPath)
    by apply newPath_flat.
  pose proof (handleOldDailyFile_move settings now file d v v1 v2 t1 t2
                Hparse Htoday Hplaced He1 He2) as Hrun.
  cbv zeta in Hrun. rewrite Hpath in Hrun. fold run in Hrun.
  split; [|split].
  - destruct (rename v2 file newPath) as [v3|err]; rewrite Hrun;
      [exists true | exists false]; unfold traceOf; simpl;
      apply in_or_app; right; apply in_or_app; right; now left.
  - intros e Hin Hren. rewrite <- Hpath.
    now apply (handleOldDailyFile_renames_to settings now file d v e).
  - intros v3 Hok. rewrite Hok in Hrun. rewrite Hrun.
    unfold completionOf, vaultOf, traceOf; simpl.
    repeat split.
    apply in_or_app; right; apply in_or_app; right; now left.
Qed.


(** ** The target folder *)

(** C2 (amended).  The target folder of a date is
    [base + "/" + format(date, yearFmt) + "/" + format(date, monthFmt)]:
    the month folder under the year folder under the base, the base and
    the year written once.  It is the first path [handleOldDailyFile]
    asks the host about for a dated file that is not today's. *)
Theorem C2_target_folder_path
  (settings : AutomaticFoldersSettings) (d : Moment) :
  targetFolderPath settings d
  = baseJournalFolder settings ++ "/"
    ++ format d (yearlyFolderFormat settings) ++ "/"
    ++ format d (monthlyFolderFormat settings)
  /\ startsWith (targetFolderPath settings d)
                (baseJournalFolder settings ++ "/"
                 ++ format d (yearlyFolderFormat settings)) = true
  /\ (forall (now : Moment) (file : TFile) (v : Vault),
        momentStrict (stripExtension (name file)) (dailyNoteFormat settings)
          = Some d ->
        stripExtension (name file)
          <> format now (dailyNoteFormat settings) ->
        exists answer rest,
          traceOf (handleOldDailyFile settings now file v)
          = EExists (baseJournalFolder settings ++ "/"
                     ++ format d (yearlyFolderFormat settings) ++ "/"
                     ++ format d (monthlyFolderFormat settings)) answer
            :: rest).
Proof.
  split; [reflexivity|split].
  - unfold targetFolderPath.
    rewrite <- (append_assoc (baseJournalFolder settings) "/"
                  (format d (yearlyFolderFormat settings) ++ "/"
                   ++ format d (monthlyFolderFormat settings))).
    rewrite <- (append_assoc (baseJournalFolder settings ++ "/")).
    rewrite <- (append_assoc (baseJournalFolder settings) "/"
                  (format d (yearlyFolderFormat settings))).
    apply startsWith_append.
  - intros now file v Hparse Htoday. apply String.eqb_neq in Htoday.
    unfold handleOldDailyFile. rewrite Hparse, Htoday.
    unfold bind at 1. rewrite ensureFolderExists_run.
    fold (targetFolderPath settings d).
    destruct (adapterExists v (targetFolderPath settings d)).
    + exists true.
      destruct (startsWith (path file) (targetFolderPath settings d)).
      * eexists. reflexivity.
      * match goal with
        | |- context [bind ?m ?k v] => destruct (bind m k v) as [[c v'] t]
        end. eexists. reflexivity.
    + destruct (createFolder v (targetFolderPath settings d)) as [v1|err].
      * exists false.
        destruct (startsWith (path file) (targetFolderPath settings d)).
        -- eexists. reflexivity.
        -- match goal with
           | |- context [bind ?m ?k v1] =>
               destruct (bind m k v1) as [[c v'] t]
           end. eexists. reflexivity.
      * exists false. eexists. reflexivity.
Qed.

(** ** The two flags *)

(** C9.  Two configurations that agree on the base folder and the
    three formats, whatever their [createYearFolders] and
    [createMonthFolders], make [ensureCurrentFolderExists] and
    [handleOldDailyFile] run alike: same completion, same vault, same
    calls to the host.  The flags gate nothing: on a vault that has
    neither folder, [ensureCurrentFolderExists] creates the year folder
    and then the month folder under any configuration. *)
Theorem C9_flags_are_not_read (s1 s2 : AutomaticFoldersSettings) :
  baseJournalFolder s1 = baseJournalFolder s2 ->
  dailyNoteFormat s1 = dailyNoteFormat s2 ->
  monthlyFolderFormat s1 = monthlyFolderFormat s2 ->
  yearlyFolderFormat s1 = yearlyFolderFormat s2 ->
  (forall (now : Moment) (v : Vault),
      ensureCurrentFolderExists s1 now v = ensureCurrentFolderExists s2 now v)
  /\ (forall (now : Moment) (file : TFile) (v : Vault),
        handleOldDailyFile s1 now file v = handleOldDailyFile s2 now file v)
  /\ (forall (now : Moment) (v v1 v2 : Vault),
        let yearly :=
          baseJournalFolder s1 ++ "/" ++ format now (yearlyFolderFormat s1) in
        let monthly :=
          baseJournalFolder s1 ++ "/" ++ format now (yearlyFolderFormat s1)
          ++ "/" ++ format now (monthlyFolderFormat s1) in
        adapterExists v yearly = false ->
        createFolder v yearly = inl v1 ->
        adapterExists v1 monthly = false ->
        createFolder v1 monthly = inl v2 ->
        ensureCurrentFolderExists s2 now v
        = (Return tt, v2,
           [EExists yearly false; ECreateFolder yearly true;
            EExists monthly false; ECreateFolder monthly true])).
Proof.
  destruct s1 as [b1 cy1 cm1 f1 m1 y1], s2 as [b2 cy2 cm2 f2 m2 y2].
  simpl. intros <- <- <- <-.
  split; [|split]; try reflexivity.
  intros now v v1 v2 Hy Hcy Hm Hcm.
  unfold ensureCurrentFolderExists; simpl.
  unfold bind at 1. rewrite ensureFolderExists_run, Hy, Hcy.
  rewrite ensureFolderExists_run, Hm, Hcm. reflexivity.
Qed.

(** ** The extension *)

(** C10.  Extension stripping removes the final dot-suffix only: a dot
    followed to the end of the name by one or more characters that are
    neither a slash nor a dot.  Of [2025-01-15.tar.gz] it leaves
    [2025-01-15.tar]; a name without a dot is left whole, so that a
    file without extension whose name parses as a date is a dated file:
    when it is not today's and not placed yet, and the host accepts the
    calls, it is moved under its own name. *)
Theorem C10_extension_stripping :
  stripExtension "2025-01-15.tar.gz" = "2025-01-15.tar"
  /\ (forall b e : string,
        e <> EmptyString -> allChars extensionChar e = true ->
        stripExtension (b ++ "." ++ e) = b)
  /\ (forall n : string, allChars notDot n = true -> stripExtension n = n)
  /\ (forall (settings : AutomaticFoldersSettings) (now : Moment)
              (file : TFile) (d : Moment) (v v1 v2 v3 : Vault)
              (t1 t2 : list Event),
        allChars notDot (name file) = true ->
        momentStrict (name file) (dailyNoteFormat settings) = Some d ->
        name file <> format now (dailyNoteFormat settings) ->
        startsWith (path file) (targetFolderPath settings d) = false ->
        ensureFolderExists (targetFolderPath settings d) v
          = (Return tt, v1, t1) ->
        ensureFolderExists (targetFolderPath settings d) v1
          = (Return tt, v2, t2) ->
        rename v2 file (targetFolderPath settings d ++ "/" ++ name file)
          = inl v3 ->
        completionOf (handleOldDailyFile settings now file v)
          = Return (Some (name file))
        /\ vaultOf (handleOldDailyFile settings now file v) = v3).
Proof.
  split; [reflexivity|]. split; [|split].
  - intros b e. apply stripExtension_last_suffix.
  - apply stripExtension_without_dot.
  - intros settings now file d v v1 v2 v3 t1 t2
           Hdot Hparse Htoday Hplaced He1 He2 Hok.
    pose proof (stripExtension_without_dot (name file) Hdot) as Hbase.
    rewrite (handleOldDailyFile_move settings now file d v v1 v2 t1 t2);
      try assumption; try (now rewrite Hbase).
    cbv zeta. rewrite Hok. split; reflexivity.
Qed.

(** ** The loop of the sweep *)

(** A loop over files that the guards stop issues no rename, wherever
    it ends. *)
Lemma forEachChild_guarded
  (settings : AutomaticFoldersSettings) (now : Moment)
  (cs : list TAbstractFile) :
  (forall g, In (AFile g) cs -> skippedByGuards settings now g = true) ->
  forall v : Vault,
    existsb isRename (traceOf (forEachChild settings now cs v)) = false.
Proof.
  induction cs as [|[f|p] rest IH]; intros Hall v.
  - reflexivity.
  - cbn [forEachChild]. unfold bind.
    pose proof (handleOldDailyFile_guarded settings now f v
                  (Hall f (or_introl eq_refl))) as Hf.
    destruct (handleOldDailyFile settings now f v) as [[[r|e] v1] t1];
      unfold traceOf in Hf; simpl in Hf; [|exact Hf].
    assert (Hrest : forall g, In (AFile g) rest ->
                              skippedByGuards settings now g = true)
      by (intros g Hg; apply Hall; now right).
    specialize (IH Hrest v1).
    destruct (forEachChild settings now rest v1) as [[c v2] t2].
    unfold traceOf in *; simpl in *.
    now rewrite existsb_app, Hf, IH.
  - cbn [forEachChild]. apply IH. intros g Hg. apply Hall. now right.
Qed.

(** ** The sweep without its folder *)

(** C8.  When the base journal folder does not resolve to a folder
    handle, [organizeExistingFiles] writes one error line and returns:
    nothing is thrown, no file is looked at, the host is not called and
    the vault is unchanged. *)
Theorem C8_missing_base_folder
  (settings : AutomaticFoldersSettings) (now : Moment) (v : Vault) :
  (forall p, getAbstractFileByPath v (baseJournalFolder settings)
             <> Some (AFolder p)) ->
  organizeExistingFiles settings now v
    = (Return tt, v,
       [EConsoleError ("Folder " ++ dq ++ baseJournalFolder settings ++ dq
                       ++ " not found.") None]).
Proof.
  intros Hnone. unfold organizeExistingFiles, bind, readVault.
  destruct (getAbstractFileByPath v (baseJournalFolder settings))
    as [[f|p]|] eqn:E; try reflexivity.
  now elim (Hnone p).
Qed.

End Facts.

(** ** The statements on the scenarios *)

Lemma C3_not_dated_is_skipped_witness :
  momentStrict (stripExtension (name Scenario.plainNote))
               (dailyNoteFormat Scenario.settings) = None
  /\ handleOldDailyFile Scenario.settings Scenario.june1 Scenario.plainNote
       Scenario.journal
     = (Return None, Scenario.journal,
        [EConsoleLog "Could not parse a valid date from file name: notes.md"]).
Proof.
  split; [reflexivity|].
  apply (C3_not_dated_is_skipped Scenario.settings Scenario.june1
           Scenario.plainNote Scenario.journal).
  reflexivity.
Defined.

Lemma C4_today_is_skipped_witness :
  momentStrict (stripExtension (name Scenario.todayNote))
               (dailyNoteFormat Scenario.settings) = Some Scenario.june1
  /\ stripExtension (name Scenario.todayNote)
     = format Scenario.june1 (dailyNoteFormat Scenario.settings)
  /\ handleOldDailyFile Scenario.settings Scenario.june1 Scenario.todayNote
       Scenario.journal
     = (Return None, Scenario.journal,
        [EConsoleLog "Skipping today's file: 2025-06-01.md"]).
Proof.
  split; [reflexivity|]. split; [reflexivity|].
  apply (C4_today_is_skipped Scenario.settings Scenario.june1
           Scenario.todayNote Scenario.june1 Scenario.journal);
    reflexivity.
Defined.

Lemma C8_missing_base_folder_witness :
  getAbstractFileByPath Scenario.noJournal
    (baseJournalFolder Scenario.settings) = None
  /\ organizeExistingFiles Scenario.settings Scenario.june1 Scenario.noJournal
     = (Return tt, Scenario.noJournal,
        [EConsoleError ("Folder " ++ dq ++ "journal" ++ dq ++ " not found.")
                       None]).
Proof.
  split; [reflexivity|].
  apply (C8_missing_base_folder Scenario.settings Scenario.june1
           Scenario.noJournal).
  intros p. vm_compute. discriminate.
Defined.

Lemma C1_old_daily_file_is_moved_witness :
  momentStrict (stripExtension (name Scenario.oldNote))
               (dailyNoteFormat Scenario.settings) = Some Scenario.jan15
  /\ startsWith (path Scenario.oldNote)
                (targetFolderPath Scenario.settings Scenario.jan15) = false
  /\ completionOf (handleOldDailyFile Scenario.settings Scenario.june1
                     Scenario.oldNote Scenario.journal)
     = Return (Some "2025-01-15.md")
  /\ In (ERename "journal/2025-01-15.md" "journal/2025/01/2025-01-15.md" true)
        (traceOf (handleOldDailyFile Scenario.settings Scenario.june1
                    Scenario.oldNote Scenario.journal)).
Proof.
  split; [reflexivity|]. split; [reflexivity|].
  pose (checked := ensureFolderExists
                     (targetFolderPath Scenario.settings Scenario.jan15)
                     Scenario.journal).
  pose (rechecked := ensureFolderExists
                       (targetFolderPath Scenario.settings Scenario.jan15)
                       (vaultOf checked)).
  destruct (C1_old_daily_file_is_moved Scenario.settings Scenario.june1
              Scenario.oldNote Scenario.jan15 Scenario.journal
              (vaultOf checked) (vaultOf rechecked)
              (traceOf checked) (traceOf rechecked))
    as [_ [_ Hmoved]];
    [reflexivity | vm_compute; discriminate
     | reflexivity | reflexivity | reflexivity |].
  destruct (Hmoved (vaultOf (handleOldDailyFile Scenario.settings
                               Scenario.june1 Scenario.oldNote
                               Scenario.journal)) eq_refl)
    as [Hname [_ Hcall]].
  split; [exact Hname | exact Hcall].
Defined.

(** C2, as the specification words it, fails on scenario A: the code
    builds [journal/2025/01], the formula [journal/2025/journal/2025/01]. *)
Lemma C2_spec_formula_counterexample :
  targetFolderPath Scenario.settings Scenario.jan15
  <> targetFolder_spec (baseJournalFolder Scenario.settings) Scenario.jan15
       (yearlyFolderFormat Scenario.settings)
       (monthlyFolderFormat Scenario.settings).
Proof. vm_compute. discriminate. Qed.

Lemma C2_target_folder_path_witness :
  targetFolderPath Scenario.settings Scenario.jan15 = "journal/2025/01"
  /\ exists answer rest,
       traceOf (handleOldDailyFile Scenario.settings Scenario.june1
                  Scenario.oldNote Scenario.journal)
       = EExists "journal/2025/01" answer :: rest.
Proof.
  destruct (C2_target_folder_path Scenario.settings Scenario.jan15)
    as [Hpath [_ Hfirst]].
  split; [reflexivity|].
  apply (Hfirst Scenario.june1 Scenario.oldNote Scenario.journal);
    [reflexivity | vm_compute; discriminate].
Defined.

Lemma C5_already_placed_is_skipped_witness :
  targetFolderPath Scenario.settingsJ Scenario.mar5 = "j/2025/03"
  /\ path Scenario.strayNote = "j/2025/030-extra/2025-03-05.md"
  /\ startsWith (path Scenario.strayNote)
                (targetFolderPath Scenario.settingsJ Scenario.mar5) = true
  /\ completionOf (handleOldDailyFile Scenario.settingsJ Scenario.june1
                     Scenario.strayNote Scenario.looseVault) = Return None
  /\ existsb isRename
       (traceOf (handleOldDailyFile Scenario.settingsJ Scenario.june1
                   Scenario.strayNote Scenario.looseVault)) = false.
Proof.
  split; [reflexivity|]. split; [reflexivity|]. split; [reflexivity|].
  pose (checked := ensureFolderExists
                     (targetFolderPath Scenario.settingsJ Scenario.mar5)
                     Scenario.looseVault).
  destruct (C5_already_placed_is_skipped Scenario.settingsJ Scenario.june1
              Scenario.strayNote Scenario.mar5 Scenario.looseVault)
    as [Hnone [Hnull _]];
    [reflexivity | vm_compute; discriminate | reflexivity |].
  split; [|exact Hnone].
  rewrite (Hnull (vaultOf checked) (traceOf checked) eq_refl).
  reflexivity.
Defined.


Lemma C9_flags_are_not_read_witness :
  createYearFolders Scenario.settings = true
  /\ createYearFolders Scenario.flagsOff = false
  /\ createMonthFolders Scenario.flagsOff = false
  /\ handleOldDailyFile Scenario.settings Scenario.june1 Scenario.oldNote
       Scenario.journal
     = handleOldDailyFile Scenario.flagsOff Scenario.june1 Scenario.oldNote
         Scenario.journal
  /\ traceOf (ensureCurrentFolderExists Scenario.flagsOff Scenario.june1
                Scenario.journal)
     = [EExists "journal/2025" false; ECreateFolder "journal/2025" true;
        EExists "journal/2025/06" false; ECreateFolder "journal/2025/06" true].
Proof.
  split; [reflexivity|]. split; [reflexivity|]. split; [reflexivity|].
  destruct (C9_flags_are_not_read Scenario.settings Scenario.flagsOff
              eq_refl eq_refl eq_refl eq_refl) as [_ [Hsame Hcreated]].
  split; [apply Hsame|].
  rewrite (Hcreated Scenario.june1 Scenario.journal
             (Scenario.journal ++ [AFolder "journal/2025"])%list
             (Scenario.journal ++ [AFolder "journal/2025";
                                   AFolder "journal/2025/06"])%list);
    reflexivity.
Defined.

Lemma C10_extension_stripping_witness :
  stripExtension "2025-01-15" = "2025-01-15"
  /\ stripExtension ("archive" ++ "." ++ "zip") = "archive"
  /\ completionOf (handleOldDailyFile Scenario.settings Scenario.june1
                     Scenario.bareNote Scenario.bareJournal)
     = Return (Some "2025-01-15").
Proof.
  destruct (@C10_extension_stripping MiniMoment.dateLibrary FlatVault.host)
    as [_ [Hsuffix [Hwhole Hmoved]]].
  split; [apply Hwhole; reflexivity|].
  split; [apply Hsuffix; [discriminate | reflexivity]|].
  pose (checked := ensureFolderExists
                     (targetFolderPath Scenario.settings Scenario.jan15)
                     Scenario.bareJournal).
  pose (rechecked := ensureFolderExists
                       (targetFolderPath Scenario.settings Scenario.jan15)
                       (vaultOf checked)).
  apply (Hmoved Scenario.settings Scenario.june1 Scenario.bareNote
           Scenario.jan15 Scenario.bareJournal
           (vaultOf checked) (vaultOf rechecked)
           (vaultOf (handleOldDailyFile Scenario.settings Scenario.june1
                       Scenario.bareNote Scenario.bareJournal))
           (traceOf checked) (traceOf rechecked));
    try reflexivity.
  vm_compute; discriminate.
Defined.

(** * Further facts *)

(** ** The extension *)

Lemma prefix_cons (c : ascii) (a b : string) :
  String.prefix (String c a) (String c b) = String.prefix a b.
Proof.
  simpl. destruct (ascii_dec c c) as [_|N]; [reflexivity | now elim N].
Qed.

(** X1.  What [stripExtension] returns begins the name it was given.  It
    is the name itself, or the name is [b.e] with [e] one or more
    characters free of dots and slashes, and it is [b].  A name that ends
    in a dot keeps it. *)
Theorem X1_stripExtension_shape :
  (forall s : string,
      String.prefix (stripExtension s) s = true
      /\ (stripExtension s = s
          \/ exists b e : string,
               s = b ++ "." ++ e /\ e <> EmptyString
               /\ allChars extensionChar e = true
               /\ stripExtension s = b))
  /\ (forall b : string, stripExtension (b ++ ".") = b ++ ".").
Proof.
  split.
  - induction s as [|c r [IHp IHs]].
    + split; [reflexivity | now left].
    + change (stripExtension (String c r))
        with (if matchesExtension (String c r) then EmptyString
              else String c (stripExtension r)).
      destruct (matchesExtension (String c r)) eqn:Hm.
      * split; [reflexivity|]. right.
        rewrite matchesExtension_cons in Hm.
        destruct r as [|c1 r1]; [discriminate|].
        apply andb_prop in Hm as [Hdot Hall].
        unfold isDot in Hdot. apply Ascii.eqb_eq in Hdot. subst c.
        exists EmptyString, (String c1 r1).
        repeat split; [discriminate | exact Hall].
      * split; [now rewrite prefix_cons|].
        destruct IHs as [Hsame|[b [e [Hs [Hne [Hall Hb]]]]]].
        -- left. now rewrite Hsame.
        -- right. exists (String c b), e.
           repeat split; try assumption.
           ++ now rewrite Hs.
           ++ now rewrite Hb.
  - induction b as [|x b IH]; [reflexivity|].
    cbn [append].
    change (stripExtension (String x (b ++ ".")))
      with (if matchesExtension (String x (b ++ "."))
            then EmptyString
            else String x (stripExtension (b ++ "."))).
    rewrite matchesExtension_cons.
    change (b ++ ".") with (b ++ String "." EmptyString).
    rewrite allChars_through_dot, andb_false_r, IH.
    now destruct (b ++ String "." EmptyString).
Qed.

(** ** The settings *)

(** X13.  Settings that were saved load back as they were; without saved
    data the defaults load; and saving what was loaded, then loading
    again, changes nothing, whatever fields the saved data held. *)
Theorem X13_settings_round_trip :
  (forall settings : AutomaticFoldersSettings,
      loadSettings (Some (saveSettings settings)) = settings)
  /\ loadSettings None = DEFAULT_SETTINGS
  /\ (forall data : option SavedData,
         loadSettings (Some (saveSettings (loadSettings data)))
         = loadSettings data).
Proof.
  assert (Hround : forall s, loadSettings (Some (saveSettings s)) = s)
    by (intros [b cy cm f m y]; reflexivity).
  split; [exact Hround|]. split; [reflexivity|].
  intros data. apply Hround.
Qed.

Section MoreFacts.

Context {DL : DateLibrary} {VH : Host}.

(** ** The sweep of a folder without files *)

(** X11.  A base folder that lists no file, only folders or nothing at
    all, is swept without a call to the host and without a console line:
    folders are not entered and not moved. *)
Theorem X11_sweep_of_folders
  (settings : AutomaticFoldersSettings) (now : Moment) (v : Vault)
  (journalFolder : string) :
  getAbstractFileByPath v (baseJournalFolder settings)
    = Some (AFolder journalFolder) ->
  forallb isFolderHandle (children v journalFolder) = true ->
  organizeExistingFiles settings now v = (Return tt, v, []).
Proof.
  intros Hbase Hall.
  unfold organizeExistingFiles, bind, readVault. rewrite Hbase.
  assert (Hloop : forall cs, forallb isFolderHandle cs = true ->
                             forEachChild settings now cs v = (Return tt, v, [])).
  { induction cs as [|[f|p] rest IH]; simpl; intros Hcs;
      [reflexivity | discriminate | now apply IH]. }
  now rewrite (Hloop _ Hall).
Qed.

(** ** The folder checks *)

Lemma ensureFolderExists_returns
  (p : string) (v v1 : Vault) (t1 : list Event) :
  ensureFolderExists p v = (Return tt, v1, t1) ->
  (adapterExists v p = true /\ v1 = v /\ t1 = [EExists p true])
  \/ (adapterExists v p = false /\ createFolder v p = inl v1
      /\ t1 = [EExists p false; ECreateFolder p true]).
Proof.
  rewrite ensureFolderExists_run.
  destruct (adapterExists v p).
  - intros E; injection E as <- <-. now left.
  - destruct (createFolder v p) as [v'|e]; [|discriminate].
    intros E; injection E as <- <-. now right.
Qed.

Lemma ensureFolderExists_throws
  (p : string) (v v1 : Vault) (t1 : list Event) (e : string) :
  ensureFolderExists p v = (Throw e, v1, t1) ->
  adapterExists v p = false /\ createFolder v p = inr e
  /\ v1 = v /\ t1 = [EExists p false; ECreateFolder p false].
Proof.
  rewrite ensureFolderExists_run.
  destruct (adapterExists v p); [discriminate|].
  destruct (createFolder v p) as [v'|e']; [discriminate|].
  intros E; injection E as <- <- <-. repeat split.
Qed.

(** X2.  On a host where a created folder is there afterwards, a folder
    check that returned leaves the folder in the vault, took at most one
    [createFolder], and a second check of the same path right after it
    only asks the host whether the path exists: it creates nothing and
    leaves the vault alone. *)
Theorem X2_ensureFolderExists_twice
  (p : string) (v v1 : Vault) (t1 : list Event) :
  createdFoldersExist ->
  ensureFolderExists p v = (Return tt, v1, t1) ->
  adapterExists v1 p = true
  /\ createFolderCalls t1 <= 1
  /\ ensureFolderExists p v1 = (Return tt, v1, [EExists p true]).
Proof.
  intros Hlaw Hrun.
  assert (Hthere : adapterExists v1 p = true).
  { destruct (ensureFolderExists_returns p v v1 t1 Hrun)
      as [[Hex [-> _]]|[_ [Hcreate _]]];
      [exact Hex | exact (Hlaw v v1 p Hcreate)]. }
  split; [exact Hthere|]. split.
  - destruct (ensureFolderExists_returns p v v1 t1 Hrun)
      as [[_ [_ ->]]|[_ [_ ->]]]; unfold createFolderCalls; simpl; lia.
  - rewrite ensureFolderExists_run, Hthere. reflexivity.
Qed.

(** X3.  When the year folder of today is missing and the host rejects
    its creation, [ensureCurrentFolderExists] throws the host's error:
    the month folder is neither looked for nor created, and the vault is
    as it was. *)
Theorem X3_year_folder_rejected
  (settings : AutomaticFoldersSettings) (now : Moment) (v : Vault)
  (err : string) :
  let yearly :=
    baseJournalFolder settings ++ "/"
    ++ format now (yearlyFolderFormat settings) in
  adapterExists v yearly = false ->
  createFolder v yearly = inr err ->
  ensureCurrentFolderExists settings now v
  = (Throw err, v, [EExists yearly false; ECreateFolder yearly false]).
Proof.
  intros yearly Habsent Hrej.
  unfold ensureCurrentFolderExists. unfold bind at 1.
  fold yearly. now rewrite ensureFolderExists_run, Habsent, Hrej.
Qed.

(** X4.  On a host where created folders are there afterwards and
    creating a folder removes no path, a start-up check that returned
    leaves in the vault the year folder and the month folder of today;
    the month folder is the target folder of a note dated today; and a
    second start-up check right after it creates nothing. *)
Theorem X4_current_folders_exist
  (settings : AutomaticFoldersSettings) (now : Moment) (v v' : Vault)
  (t : list Event) :
  createdFoldersExist -> foldersPersist ->
  ensureCurrentFolderExists settings now v = (Return tt, v', t) ->
  let yearly :=
    baseJournalFolder settings ++ "/"
    ++ format now (yearlyFolderFormat settings) in
  adapterExists v' yearly = true
  /\ adapterExists v' (targetFolderPath settings now) = true
  /\ ensureCurrentFolderExists settings now v'
     = (Return tt, v',
        [EExists yearly true;
         EExists (targetFolderPath settings now) true]).
Proof.
  intros Hlaw Hkeep Hrun yearly.
  unfold ensureCurrentFolderExists in Hrun. fold yearly in Hrun.
  fold (targetFolderPath settings now) in Hrun.
  unfold bind at 1 in Hrun.
  destruct (ensureFolderExists yearly v) as [[[[]|e1] v1] t1] eqn:He1;
    [|discriminate].
  destruct (ensureFolderExists (targetFolderPath settings now) v1)
    as [[[[]|e2] v2] t2] eqn:He2; [|discriminate].
  injection Hrun as <- <-.
  assert (Hy1 : adapterExists v1 yearly = true).
  { destruct (ensureFolderExists_returns _ _ _ _ He1)
      as [[Hex [-> _]]|[_ [Hc _]]]; [exact Hex | exact (Hlaw _ _ _ Hc)]. }
  assert (Hy2 : adapterExists v2 yearly = true).
  { destruct (ensureFolderExists_returns _ _ _ _ He2)
      as [[_ [-> _]]|[_ [Hc _]]]; [exact Hy1 | exact (Hkeep _ _ _ _ Hc Hy1)]. }
  assert (Hm2 : adapterExists v2 (targetFolderPath settings now) = true).
  { destruct (ensureFolderExists_returns _ _ _ _ He2)
      as [[Hex [-> _]]|[_ [Hc _]]]; [exact Hex | exact (Hlaw _ _ _ Hc)]. }
  split; [exact Hy2|]. split; [exact Hm2|].
  unfold ensureCurrentFolderExists. fold yearly.
  fold (targetFolderPath settings now).
  unfold bind at 1.
  rewrite ensureFolderExists_run, Hy2. cbv iota beta.
  now rewrite ensureFolderExists_run, Hm2.
Qed.

(** ** One file, every way it can go *)

(** The seven ends of [handleOldDailyFile]: today's file, a file in
    place, a move, a rejected move, a second and a first folder check
    that throw, a name that is no date. *)
Ltac handle_cases settings now file v :=
  unfold handleOldDailyFile;
  destruct (momentStrict (stripExtension (name file))
                         (dailyNoteFormat settings)) as [?d|] eqn:?Hparse;
  [ destruct (String.eqb (stripExtension (name file))
                         (format now (dailyNoteFormat settings))) eqn:?Htoday;
    [ | unfold bind at 1;
        match goal with
        | |- context [ensureFolderExists ?p v] =>
            destruct (ensureFolderExists p v)
              as [[[[]|?e1] ?v1] ?t1] eqn:?He1;
            [ destruct (startsWith (path file) p) eqn:?Hplaced;
              [ | unfold bind at 1;
                  match goal with
                  | |- context [ensureFolderExists p ?u] =>
                      destruct (ensureFolderExists p u)
                        as [[[[]|?e2] ?v2] ?t2] eqn:?He2;
                      [ unfold tryCatch, bind, vaultRename, consoleLog,
                               consoleError, emit, ret;
                        match goal with
                        | |- context [rename ?w file ?q] =>
                            destruct (rename w file q) as [?v3|?err] eqn:?Hren
                        end
                      | ]
                  end ]
            | ]
        end ]
  | ].

Ltac ensure_traces :=
  repeat match goal with
         | H : ensureFolderExists _ _ = (Return tt, _, _) |- _ =>
             apply ensureFolderExists_returns in H;
             destruct H as [[? [? ?]]|[? [? ?]]]
         | H : ensureFolderExists _ _ = (Throw _, _, _) |- _ =>
             apply ensureFolderExists_throws in H;
             destruct H as [? [? [? ?]]]
         end; subst.

(** Every rename of a run is the rename of the file itself, to its name
    under the target folder of its date. *)
Lemma handleOldDailyFile_rename_event
  (settings : AutomaticFoldersSettings) (now : Moment) (file : TFile)
  (v : Vault) (from to : string) (ok : bool) :
  In (ERename from to ok) (traceOf (handleOldDailyFile settings now file v)) ->
  from = path file
  /\ exists d,
       momentStrict (stripExtension (name file)) (dailyNoteFormat settings)
         = Some d
       /\ to = targetFolderPath settings d ++ "/" ++ name file.
Proof.
  handle_cases settings now file v; ensure_traces;
    unfold traceOf; simpl; intros Hin;
    repeat match goal with
           | H : _ \/ _ |- _ => destruct H
           | H : False |- _ => elim H
           | H : _ = ERename _ _ _ |- _ =>
               first [discriminate H | injection H as <- <- <-]
           end;
    (split; [reflexivity | eexists; split; reflexivity]).
Qed.


Lemma handleOldDailyFile_rename_count
  (settings : AutomaticFoldersSettings) (now : Moment) (file : TFile)
  (v : Vault) :
  renameCalls (traceOf (handleOldDailyFile settings now file v)) <= 1.
Proof.
  handle_cases settings now file v; ensure_traces;
    unfold traceOf, renameCalls; simpl; lia.
Qed.

(** X5.  [handleOldDailyFile] returns a name exactly when the host
    accepted a rename in that run, and the name is then the name of the
    file; it returns [null], or throws, exactly when no rename was
    accepted. *)
Theorem X5_name_iff_moved
  (settings : AutomaticFoldersSettings) (now : Moment) (file : TFile)
  (v : Vault) :
  let run := handleOldDailyFile settings now file v in
  (forall n, completionOf run = Return (Some n) -> n = name file)
  /\ (existsb isAcceptedRename (traceOf run) = true
      <-> completionOf run = Return (Some (name file))).
Proof.
  cbv zeta.
  destruct (handleOldDailyFile settings now file v) as [[c v'] t] eqn:Hrun.
  revert Hrun.
  handle_cases settings now file v; ensure_traces;
    intros Hrun; injection Hrun as <- <- <-;
    unfold traceOf, completionOf; simpl;
    (split; [intros n E; congruence
            | split; intros E; congruence]).
Qed.

(** X6.  A run of [handleOldDailyFile] issues at most one rename.  It is
    the rename of the file it was given, and its destination is the
    file's own name under [base/year/month] of the date of the name: a
    path that starts with [base/]. *)
Theorem X6_one_rename_into_the_journal
  (settings : AutomaticFoldersSettings) (now : Moment) (file : TFile)
  (v : Vault) :
  let run := handleOldDailyFile settings now file v in
  renameCalls (traceOf run) <= 1
  /\ (forall from to ok,
         In (ERename from to ok) (traceOf run) ->
         from = path file
         /\ startsWith to (baseJournalFolder settings ++ "/") = true
         /\ exists d,
              momentStrict (stripExtension (name file))
                           (dailyNoteFormat settings) = Some d
              /\ to = baseJournalFolder settings ++ "/"
                      ++ format d (yearlyFolderFormat settings) ++ "/"
                      ++ format d (monthlyFolderFormat settings) ++ "/"
                      ++ name file).
Proof.
  cbv zeta. split.
  - apply handleOldDailyFile_rename_count.
  - intros from to ok Hin.
    destruct (handleOldDailyFile_rename_event settings now file v from to ok
                Hin) as [-> [d [Hparse ->]]].
    rewrite newPath_flat.
    split; [reflexivity|]. split.
    + rewrite <- (append_assoc (baseJournalFolder settings) "/").
      apply startsWith_append.
    + exists d. split; [exact Hparse | reflexivity].
Qed.

(** X7.  On a host where a created folder is there afterwards, a run of
    [handleOldDailyFile] calls [createFolder] at most once: the second
    check of the target folder finds it. *)
Theorem X7_one_folder_created
  (settings : AutomaticFoldersSettings) (now : Moment) (file : TFile)
  (v : Vault) :
  createdFoldersExist ->
  createFolderCalls (traceOf (handleOldDailyFile settings now file v)) <= 1.
Proof.
  intros Hlaw.
  handle_cases settings now file v; ensure_traces;
    unfold traceOf, createFolderCalls; simpl; try lia;
    match goal with
    | Hc : createFolder ?a ?p = inl ?b, Hx : adapterExists ?b ?p = false |- _ =>
        rewrite (Hlaw a b p Hc) in Hx; discriminate
    end.
Qed.

(** ** The sweep, every way it can go *)





(** X9.  A rejected [createFolder] is not contained: when the target
    folder of a dated file, not today's, is missing and the host rejects
    its creation, [handleOldDailyFile] throws the host's error, and a
    sweep that meets this file first stops there: the files listed after
    it are not looked at, nothing is renamed, the vault is as it was. *)
Theorem X9_rejected_folder_stops_the_sweep
  (settings : AutomaticFoldersSettings) (now : Moment) (file : TFile)
  (d : Moment) (v : Vault) (err : string) :
  momentStrict (stripExtension (name file)) (dailyNoteFormat settings)
    = Some d ->
  stripExtension (name file) <> format now (dailyNoteFormat settings) ->
  adapterExists v (targetFolderPath settings d) = false ->
  createFolder v (targetFolderPath settings d) = inr err ->
  let calls :=
    [EExists (targetFolderPath settings d) false;
     ECreateFolder (targetFolderPath settings d) false] in
  handleOldDailyFile settings now file v = (Throw err, v, calls)
  /\ (forall rest : list TAbstractFile,
        forEachChild settings now (AFile file :: rest) v
        = (Throw err, v, calls))
  /\ (forall (journalFolder : string) (rest : list TAbstractFile),
        getAbstractFileByPath v (baseJournalFolder settings)
          = Some (AFolder journalFolder) ->
        children v journalFolder = AFile file :: rest ->
        organizeExistingFiles settings now v = (Throw err, v, calls)).
Proof.
  intros Hparse Htoday Habsent Hrej calls.
  assert (Hrun : handleOldDailyFile settings now file v
                 = (Throw err, v, calls)).
  { apply String.eqb_neq in Htoday.
    unfold handleOldDailyFile. rewrite Hparse, Htoday.
    unfold bind at 1. now rewrite ensureFolderExists_run, Habsent, Hrej. }
  assert (Hloop : forall rest,
             forEachChild settings now (AFile file :: rest) v
             = (Throw err, v, calls)).
  { intros rest. cbn [forEachChild]. unfold bind. now rewrite Hrun. }
  split; [exact Hrun|]. split; [exact Hloop|].
  intros journalFolder rest Hbase Hlist.
  unfold organizeExistingFiles, bind, readVault.
  rewrite Hbase, Hlist, Hloop. reflexivity.
Qed.

(** ** The plugin, from its start on *)

(** X12.  The [create] callback leaves alone a file whose path does not
    start with [base/]: no call to the host, no console line.  A file
    anywhere below the base folder, at any depth, is handed to
    [handleOldDailyFile]: the callback leaves the vault and the trace of
    that call, and throws exactly when it throws. *)
Theorem X12_create_callback
  (settings : AutomaticFoldersSettings) (now : Moment) (file : TFile)
  (v : Vault) :
  (startsWith (path file) (baseJournalFolder settings ++ "/") = false ->
   onCreate settings now file v = (Return tt, v, []))
  /\ (forall below : string,
        path file = baseJournalFolder settings ++ "/" ++ below ->
        let run := handleOldDailyFile settings now file v in
        onCreate settings now file v
        = (match completionOf run with
           | Return _ => Return tt
           | Throw e => Throw e
           end, vaultOf run, traceOf run)).
Proof.
  split.
  - intros Hout. unfold onCreate. now rewrite Hout.
  - intros below Hpath run. unfold onCreate.
    rewrite Hpath, <- (append_assoc (baseJournalFolder settings) "/" below).
    rewrite startsWith_append.
    subst run. unfold bind, ret, completionOf, vaultOf, traceOf.
    destruct (handleOldDailyFile settings now file v) as [[[r|e] v'] t];
      simpl; [|reflexivity].
    now rewrite app_nil_r.
Qed.

(** X14.  When the year folder of today is missing and the host rejects
    its creation, [onload] throws the host's error after its greeting
    line: the sweep is not run, the [create] callback is not registered,
    and the vault is as it was. *)
Theorem X14_onload_stops_at_rejected_folder
  (data : option SavedData) (now : Moment) (v : Vault) (err : string) :
  let settings := loadSettings data in
  let yearly :=
    baseJournalFolder settings ++ "/"
    ++ format now (yearlyFolderFormat settings) in
  adapterExists v yearly = false ->
  createFolder v yearly = inr err ->
  onload data now v
  = (Throw err, v,
     [EConsoleLog "Auto File Organizer loaded";
      EExists yearly false; ECreateFolder yearly false]).
Proof.
  intros settings yearly Habsent Hrej.
  unfold onload. fold settings.
  unfold bind at 1, consoleLog, emit. unfold bind at 1.
  unfold ensureCurrentFolderExists. unfold bind at 1. fold yearly.
  now rewrite ensureFolderExists_run, Habsent, Hrej.
Qed.

(** ** Two sweeps in a row *)











End MoreFacts.

(** ** The flat vault keeps its folders *)

Lemma FlatVault_exists_app (v w : list TAbstractFile) (p : string) :
  FlatVault.exists_ (v ++ w) p
  = FlatVault.exists_ v p || FlatVault.exists_ w p.
Proof. unfold FlatVault.exists_. apply existsb_app. Qed.

Lemma FlatVault_createdFoldersExist :
  @createdFoldersExist FlatVault.host.
Proof.
  intros v v' p. cbn [createFolder adapterExists FlatVault.host].
  unfold FlatVault.createFolder_.
  destruct (FlatVault.exists_ v p); [discriminate|].
  intros E; injection E as <-.
  rewrite FlatVault_exists_app. unfold FlatVault.exists_ at 2. simpl.
  rewrite String.eqb_refl. now rewrite orb_true_r.
Qed.

Lemma FlatVault_foldersPersist : @foldersPersist FlatVault.host.
Proof.
  intros v v' p q. cbn [createFolder adapterExists FlatVault.host].
  unfold FlatVault.createFolder_.
  destruct (FlatVault.exists_ v p); [discriminate|].
  intros E; injection E as <-. intros Hq.
  now rewrite FlatVault_exists_app, Hq.
Qed.

(** ** The further facts on the scenarios *)

Lemma X2_ensureFolderExists_twice_witness :
  adapterExists Scenario.journal "journal/2025/01" = false
  /\ adapterExists
       (vaultOf (ensureFolderExists "journal/2025/01" Scenario.journal))
       "journal/2025/01" = true
  /\ ensureFolderExists "journal/2025/01"
       (vaultOf (ensureFolderExists "journal/2025/01" Scenario.journal))
     = (Return tt,
        vaultOf (ensureFolderExists "journal/2025/01" Scenario.journal),
        [EExists "journal/2025/01" true]).
Proof.
  split; [reflexivity|].
  destruct (X2_ensureFolderExists_twice "journal/2025/01" Scenario.journal
              (vaultOf (ensureFolderExists "journal/2025/01" Scenario.journal))
              (traceOf (ensureFolderExists "journal/2025/01" Scenario.journal))
              FlatVault_createdFoldersExist eq_refl)
    as [Hthere [_ Hagain]].
  split; [exact Hthere | exact Hagain].
Defined.

Lemma X3_year_folder_rejected_witness :
  @ensureCurrentFolderExists MiniMoment.dateLibrary LockedVault.host
    Scenario.settings Scenario.june1 Startup.locked
  = (Throw "EACCES: permission denied", Startup.locked,
     [EExists "journal/2025" false; ECreateFolder "journal/2025" false]).
Proof.
  apply (@X3_year_folder_rejected MiniMoment.dateLibrary LockedVault.host
           Scenario.settings Scenario.june1 Startup.locked
           "EACCES: permission denied"); reflexivity.
Defined.

Lemma X4_current_folders_exist_witness :
  let started :=
    vaultOf (ensureCurrentFolderExists Scenario.settings Scenario.june1
               Scenario.journal) in
  adapterExists Scenario.journal "journal/2025" = false
  /\ adapterExists started "journal/2025" = true
  /\ adapterExists started "journal/2025/06" = true
  /\ createFolderCalls
       (traceOf (ensureCurrentFolderExists Scenario.settings Scenario.june1
                   started)) = 0.
Proof.
  intros started. split; [reflexivity|].
  destruct (X4_current_folders_exist Scenario.settings Scenario.june1
              Scenario.journal started
              (traceOf (ensureCurrentFolderExists Scenario.settings
                          Scenario.june1 Scenario.journal))
              FlatVault_createdFoldersExist FlatVault_foldersPersist eq_refl)
    as [Hyear [Hmonth Hagain]].
  split; [exact Hyear|]. split; [exact Hmonth|].
  rewrite Hagain. reflexivity.
Defined.

Lemma X5_name_iff_moved_witness :
  completionOf (handleOldDailyFile Scenario.settings Scenario.june1
                  Scenario.oldNote Scenario.journal)
  = Return (Some "2025-01-15.md")
  /\ existsb isAcceptedRename
       (traceOf (handleOldDailyFile Scenario.settings Scenario.june1
                   Scenario.oldNote Scenario.collision)) = false.
Proof.
  split.
  - apply (X5_name_iff_moved Scenario.settings Scenario.june1
             Scenario.oldNote Scenario.journal). reflexivity.
  - destruct (existsb isAcceptedRename
                (traceOf (handleOldDailyFile Scenario.settings Scenario.june1
                            Scenario.oldNote Scenario.collision))) eqn:Hacc;
      [|reflexivity].
    apply (X5_name_iff_moved Scenario.settings Scenario.june1
             Scenario.oldNote Scenario.collision) in Hacc.
    vm_compute in Hacc. discriminate.
Defined.

Lemma X6_one_rename_into_the_journal_witness :
  In (ERename "journal/2025-01-15.md" "journal/2025/01/2025-01-15.md" true)
     (traceOf (handleOldDailyFile Scenario.settings Scenario.june1
                 Scenario.oldNote Scenario.journal))
  /\ startsWith "journal/2025/01/2025-01-15.md" "journal/" = true.
Proof.
  assert (Hin : In (ERename "journal/2025-01-15.md"
                            "journal/2025/01/2025-01-15.md" true)
                   (traceOf (handleOldDailyFile Scenario.settings
                               Scenario.june1 Scenario.oldNote
                               Scenario.journal)))
    by (vm_compute; tauto).
  split; [exact Hin|].
  destruct (X6_one_rename_into_the_journal Scenario.settings Scenario.june1
              Scenario.oldNote Scenario.journal) as [_ Hto].
  destruct (Hto _ _ _ Hin) as [_ [Hunder _]]. exact Hunder.
Defined.

Lemma X7_one_folder_created_witness :
  createFolderCalls
    (traceOf (handleOldDailyFile Scenario.settings Scenario.june1
                Scenario.oldNote Scenario.journal)) <= 1
  /\ adapterExists Scenario.journal "journal/2025/01" = false.
Proof.
  split; [|reflexivity].
  apply (X7_one_folder_created Scenario.settings Scenario.june1
           Scenario.oldNote Scenario.journal FlatVault_createdFoldersExist).
Defined.


Lemma X9_rejected_folder_stops_the_sweep_witness :
  @organizeExistingFiles MiniMoment.dateLibrary LockedVault.host
    Scenario.settings Scenario.june1 Startup.locked
  = (Throw "EACCES: permission denied", Startup.locked,
     [EExists "journal/2025/01" false; ECreateFolder "journal/2025/01" false]).
Proof.
  destruct (@X9_rejected_folder_stops_the_sweep
              MiniMoment.dateLibrary LockedVault.host
              Scenario.settings Scenario.june1 Scenario.oldNote Scenario.jan15
              Startup.locked "EACCES: permission denied")
    as [_ [_ Hsweep]];
    [reflexivity | vm_compute; discriminate | reflexivity | reflexivity |].
  apply (Hsweep "journal"
           [AFile Scenario.plainNote; AFile Scenario.todayNote]);
    reflexivity.
Defined.

Lemma X11_sweep_of_folders_witness :
  organizeExistingFiles Scenario.settings Scenario.june1 Startup.foldersOnly
  = (Return tt, Startup.foldersOnly, []).
Proof.
  apply (X11_sweep_of_folders Scenario.settings Scenario.june1
           Startup.foldersOnly "journal"); reflexivity.
Defined.

Lemma X12_create_callback_witness :
  onCreate Scenario.settings Scenario.june1 Startup.outsideNote Startup.nested
  = (Return tt, Startup.nested, [])
  /\ In (ERename "journal/inbox/2025-01-15.md"
                 "journal/2025/01/2025-01-15.md" true)
        (traceOf (onCreate Scenario.settings Scenario.june1
                    Startup.nestedNote Startup.nested)).
Proof.
  destruct (X12_create_callback Scenario.settings Scenario.june1
              Startup.outsideNote Startup.nested) as [Hout _].
  destruct (X12_create_callback Scenario.settings Scenario.june1
              Startup.nestedNote Startup.nested) as [_ Hbelow].
  split; [apply Hout; reflexivity|].
  rewrite (Hbelow "inbox/2025-01-15.md" eq_refl).
  vm_compute. tauto.
Defined.

Lemma X14_onload_stops_at_rejected_folder_witness :
  @onload MiniMoment.dateLibrary LockedVault.host (Some Startup.partialData)
    Scenario.june1 Startup.locked
  = (Throw "EACCES: permission denied", Startup.locked,
     [EConsoleLog "Auto File Organizer loaded";
      EExists "journal/2025" false;
      ECreateFolder "journal/2025" false]).
Proof.
  apply (@X14_onload_stops_at_rejected_folder
           MiniMoment.dateLibrary LockedVault.host (Some Startup.partialData)
           Scenario.june1 Startup.locked "EACCES: permission denied");
    reflexivity.
Defined.

(** ** The folder check that throws, and the two sweeps, on the scenarios *)

(** C1, as stated, fails on a vault that accepts no new folder: the
    three conditions hold for the old note of the journal, yet the folder
    check before the move throws, and no rename is issued. *)
Lemma C1_rejected_folder_counterexample :
  let run :=
    @handleOldDailyFile MiniMoment.dateLibrary LockedVault.host
      Scenario.settings Scenario.june1 Scenario.oldNote Startup.locked in
  momentStrict (stripExtension (name Scenario.oldNote))
               (dailyNoteFormat Scenario.settings) = Some Scenario.jan15
  /\ stripExtension (name Scenario.oldNote)
     <> format Scenario.june1 (dailyNoteFormat Scenario.settings)
  /\ startsWith (path Scenario.oldNote)
                (targetFolderPath Scenario.settings Scenario.jan15) = false
  /\ completionOf run = Throw "EACCES: permission denied"
  /\ renameCalls (traceOf run) = 0.
Proof.
  cbv zeta.
  split; [vm_compute; reflexivity|].
  split; [vm_compute; discriminate|].
  split; [vm_compute; reflexivity|].
  split; vm_compute; reflexivity.
Qed.

(** C5, as stated, fails on a vault that accepts no new folder: the path
    of the stray note starts with its target [j/2025/03], which is not
    there; the folder check before the guard throws, and the method does
    not return [null]. *)
Lemma C5_rejected_folder_counterexample :
  let run :=
    @handleOldDailyFile MiniMoment.dateLibrary LockedVault.host
      Scenario.settingsJ Scenario.june1 Scenario.strayNote
      Startup.lockedLoose in
  momentStrict (stripExtension (name Scenario.strayNote))
               (dailyNoteFormat Scenario.settingsJ) = Some Scenario.mar5
  /\ stripExtension (name Scenario.strayNote)
     <> format Scenario.june1 (dailyNoteFormat Scenario.settingsJ)
  /\ startsWith (path Scenario.strayNote)
                (targetFolderPath Scenario.settingsJ Scenario.mar5) = true
  /\ completionOf run = Throw "EACCES: permission denied"
  /\ completionOf run <> Return None.
Proof.
  cbv zeta.
  split; [vm_compute; reflexivity|].
  split; [vm_compute; discriminate|].
  split; [vm_compute; reflexivity|].
  split; [vm_compute; reflexivity | vm_compute; discriminate].
Qed.




